(** * Refact relay: a shallow embedding of [backend_service/app.py]

    The service has one route, [POST /api/refact/chat], handled by
    [refact_chat].  The handler reads the JSON body of the request,
    builds a payload for the upstream completion server, posts it, and
    reshapes the reply.

    The embedding follows the handler statement by statement.  The
    inbound request is what [request.get_json()] does on it, Python
    values are a tagged union, Python exceptions are an error type, and
    the handler runs in a small state-and-error monad whose state holds
    the outbound requests issued so far and whether the function-local
    name [requests] has been bound by the [import] statement. *)

From Stdlib Require Import ZArith List Bool Ascii String Lia.
From Stdlib Require Import DecimalString PrimFloat.
Import ListNotations.

Set Warnings "-register-all,-inexact-float".

Local Open Scope string_scope.
Local Open Scope Z_scope.

(** ** Python values

    The values that [request.get_json()] and [response.json()] can
    return.  A dict keeps its items in insertion order, as Python's
    does; its keys are strings because it is decoded from JSON. *)

Inductive pyval : Type :=
| PNone
| PBool (b : bool)
| PInt (z : Z)
| PFloat (f : float)
| PStr (s : string)
| PList (l : list pyval)
| PDict (d : list (string * pyval)).

(** [bool(v)], the test behind [if not v]. *)
Definition truthy (v : pyval) : bool :=
  match v with
  | PNone => false
  | PBool b => b
  | PInt z => negb (z =? 0)
  | PFloat f => negb (PrimFloat.eqb f 0%float)
  | PStr s => negb (String.eqb s "")
  | PList l => match l with [] => false | _ :: _ => true end
  | PDict d => match d with [] => false | _ :: _ => true end
  end.

(** [type(v).__name__], used in the interpreter's error messages. *)
Definition type_name (v : pyval) : string :=
  match v with
  | PNone => "NoneType"
  | PBool _ => "bool"
  | PInt _ => "int"
  | PFloat _ => "float"
  | PStr _ => "str"
  | PList _ => "list"
  | PDict _ => "dict"
  end.

(** Lookup in a dict's items. *)
Fixpoint dict_get (k : string) (d : list (string * pyval)) : option pyval :=
  match d with
  | [] => None
  | (k', v) :: d' => if String.eqb k k' then Some v else dict_get k d'
  end.

Definition dict_keys (d : list (string * pyval)) : list string := map fst d.

(** ** Strings

    [s.rstrip(c)] for a one-character set: the longest prefix of [s]
    that does not end in [c]. *)
Fixpoint rstrip (c : ascii) (s : string) : string :=
  match s with
  | EmptyString => EmptyString
  | String a s' =>
      match rstrip c s' with
      | EmptyString => if Ascii.eqb a c then EmptyString else String a EmptyString
      | r => String a r
      end
  end.

(** [c * n], the string of [n] copies of [c]. *)
Fixpoint repeat_char (c : ascii) (n : nat) : string :=
  match n with
  | O => EmptyString
  | S n' => String c (repeat_char c n')
  end.

(** [needle in hay] on two strings: substring test. *)
Fixpoint str_contains (needle hay : string) : bool :=
  String.prefix needle hay ||
  match hay with
  | EmptyString => false
  | String _ hay' => str_contains needle hay'
  end.

(** [sep.join(parts)]. *)
Fixpoint join (sep : string) (parts : list string) : string :=
  match parts with
  | [] => ""
  | [p] => p
  | p :: ps => p ++ sep ++ join sep ps
  end.

(** [str(z)] for an int. *)
Definition str_int (z : Z) : string := NilZero.string_of_int (Z.to_int z).

(** ** Exceptions *)

(** The subclasses of [requests.exceptions.RequestException] that the
    calls of the handler raise.  [HTTPException] below is werkzeug's,
    the class of what [request.get_json()] raises. *)
Inductive request_exception : Type :=
| ConnectionError
| Timeout
| HTTPError
| JSONDecodeError
| OtherRequestException.

Inductive exn : Type :=
| RequestException (k : request_exception) (msg : string)
| AttributeError (msg : string)
| TypeError (msg : string)
| KeyError (msg : string)
| IndexError (msg : string)
| UnboundLocalError (msg : string)
| HTTPException (code : Z) (msg : string).

(** [str(e)]. *)
Definition str_exn (e : exn) : string :=
  match e with
  | RequestException _ msg => msg
  | AttributeError msg => msg
  | TypeError msg => msg
  | KeyError msg => msg
  | IndexError msg => msg
  | UnboundLocalError msg => msg
  | HTTPException _ msg => msg
  end.

(** [isinstance(e, requests.exceptions.RequestException)]. *)
Definition is_request_exception (e : exn) : bool :=
  match e with
  | RequestException _ _ => true
  | _ => false
  end.

(** ** The upstream call

    One call of [requests.post(url, json=..., headers=..., timeout=...)]. *)
Record post_call : Type := mkPostCall {
  post_url : string;
  post_json : pyval;
  post_headers : list (string * string);
  post_timeout : Z
}.

(** What [requests.post] hands back: the status code, the message
    [raise_for_status] raises with, and what [json()] gives, the decoded
    body or the decoder's message. *)
Record Response : Type := mkResponse {
  status_code : Z;
  http_error_msg : string;
  decoded : pyval + string
}.

(** A call of [requests.post] either raises a [RequestException]
    (connection refused, timeout, ...) or returns a [Response]. *)
Inductive post_result : Type :=
| PostRaised (k : request_exception) (msg : string)
| PostReturned (r : Response).

(** ** The handler's monad

    The state of one run of [refact_chat]: the calls of [requests.post]
    made so far, oldest first, and whether the local name [requests] is
    bound ([import requests] is a statement of the function body, so the
    name is local to it and unbound until that statement has run). *)
Record frame : Type := mkFrame {
  outbound : list post_call;
  requests_bound : bool
}.

Definition init_frame : frame := mkFrame [] false.

Definition M (A : Type) : Type := frame -> (A + exn) * frame.

Definition ret {A : Type} (a : A) : M A := fun fr => (inl a, fr).

Definition raise {A : Type} (e : exn) : M A := fun fr => (inr e, fr).

Definition bind {A B : Type} (m : M A) (k : A -> M B) : M B :=
  fun fr =>
    match m fr with
    | (inl a, fr') => k a fr'
    | (inr e, fr') => (inr e, fr')
    end.

Notation "x <- m ;; k" := (bind m (fun x => k))
  (at level 61, m at next level, right associativity).
Notation "m ;;; k" := (bind m (fun _ => k))
  (at level 61, right associativity).

(** ** The operations of the interpreter that the handler uses

    Each raises what CPython raises when the operand has the wrong type.
    The message texts are CPython 3.12's; no theorem below depends on
    them. *)

(** [obj.get(key)]: only a dict has the method. *)
Definition py_get (obj : pyval) (key : string) : M pyval :=
  match obj with
  | PDict d => ret (match dict_get key d with Some v => v | None => PNone end)
  | _ => raise (AttributeError ("'" ++ type_name obj ++ "' object has no attribute 'get'"))
  end.

(** [obj.get(key, default)]. *)
Definition py_get_default (obj : pyval) (key : string) (default : pyval) : M pyval :=
  match obj with
  | PDict d => ret (match dict_get key d with Some v => v | None => default end)
  | _ => raise (AttributeError ("'" ++ type_name obj ++ "' object has no attribute 'get'"))
  end.

Definition is_str (s : string) (v : pyval) : bool :=
  match v with
  | PStr s' => String.eqb s s'
  | _ => false
  end.

(** [key in obj] for a string [key]: a key of a dict, an element of a
    list, a substring of a string. *)
Definition py_in (key : string) (obj : pyval) : M bool :=
  match obj with
  | PDict d => ret (match dict_get key d with Some _ => true | None => false end)
  | PList l => ret (existsb (is_str key) l)
  | PStr s => ret (str_contains key s)
  | _ => raise (TypeError ("argument of type '" ++ type_name obj ++ "' is not iterable"))
  end.

(** [obj[key]] for a string [key]. *)
Definition py_getitem_str (obj : pyval) (key : string) : M pyval :=
  match obj with
  | PDict d =>
      match dict_get key d with
      | Some v => ret v
      | None => raise (KeyError ("'" ++ key ++ "'"))
      end
  | PList _ => raise (TypeError "list indices must be integers or slices, not str")
  | PStr _ => raise (TypeError "string indices must be integers, not 'str'")
  | _ => raise (TypeError ("'" ++ type_name obj ++ "' object is not subscriptable"))
  end.

(** [obj[0]].  A dict decoded from JSON has no key [0].  For a str the
    result is its first character, here its first byte; the handler
    only calls [get] on it, which a str does not have. *)
Definition py_getitem_0 (obj : pyval) : M pyval :=
  match obj with
  | PList l =>
      match l with
      | v :: _ => ret v
      | [] => raise (IndexError "list index out of range")
      end
  | PStr s =>
      match s with
      | String c _ => ret (PStr (String c EmptyString))
      | EmptyString => raise (IndexError "string index out of range")
      end
  | PDict _ => raise (KeyError "0")
  | _ => raise (TypeError ("'" ++ type_name obj ++ "' object is not subscriptable"))
  end.

(** [len(obj)]. *)
Definition py_len (obj : pyval) : M Z :=
  match obj with
  | PList l => ret (Z.of_nat (List.length l))
  | PStr s => ret (Z.of_nat (String.length s))
  | PDict d => ret (Z.of_nat (List.length d))
  | _ => raise (TypeError ("object of type '" ++ type_name obj ++ "' has no len()"))
  end.

(** The inbound request, as [request.get_json()] sees it: the body
    decodes to a value ([null] decodes to [None]), or the call raises,
    an [HTTPException] with code 400 when the body is empty or is not
    JSON and with code 415 when the content type is not JSON. *)
Inductive request : Type :=
| JsonBody (data : pyval)
| NoJson (e : exn).

Coercion JsonBody : pyval >-> request.

(** [request.get_json()]. *)
Definition get_json (req : request) : M pyval :=
  match req with
  | JsonBody data => ret data
  | NoJson e => raise e
  end.

(** [import requests]: binds the local name. *)
Definition import_requests : M unit :=
  fun fr => (inl tt, mkFrame (outbound fr) true).

(** [response.raise_for_status()]: raises for a 4xx or a 5xx status. *)
Definition raise_for_status (r : Response) : M unit :=
  if (400 <=? status_code r) && (status_code r <? 600)
  then raise (RequestException HTTPError (http_error_msg r))
  else ret tt.

(** [response.json()].  A body that does not decode raises
    [requests.exceptions.JSONDecodeError], a [RequestException]. *)
Definition response_json (r : Response) : M pyval :=
  match decoded r with
  | inl v => ret v
  | inr msg => raise (RequestException JSONDecodeError msg)
  end.

(** [jsonify(fields), status]: what a route returns. *)
Definition jsonify (fields : list (string * pyval)) : pyval := PDict fields.

(** How a run of the handler ends: it returns a body and a status to
    Flask, or an exception leaves the function. *)
Inductive outcome : Type :=
| Returned (body : pyval) (status : Z)
| Escaped (e : exn).

(** The hardcoded upstream path. *)
Definition REFACT_COMPLETION_ENDPOINT : string := "/v1/completions".

Section Service.

(** The process environment, [os.environ.get]. *)
Variable environ : string -> option string.

(** [repr] of a str and of a float, which CPython provides. *)
Variable repr_str : string -> string.
Variable repr_float : float -> string.

(** The network and the upstream server: what a call of
    [requests.post] results in. *)
Variable upstream : post_call -> post_result.

Definition REFACT_SERVER_URL : string :=
  match environ "REFACT_SERVER_URL" with
  | Some v => v
  | None => "http://localhost:8008"
  end.

Definition REFACT_API_KEY : option string := environ "REFACT_API_KEY".

(** [repr(v)]. *)
Fixpoint py_repr (v : pyval) : string :=
  match v with
  | PNone => "None"
  | PBool true => "True"
  | PBool false => "False"
  | PInt z => str_int z
  | PFloat f => repr_float f
  | PStr s => repr_str s
  | PList l => "[" ++ join ", " (map py_repr l) ++ "]"
  | PDict d =>
      "{" ++ join ", " (map (fun kv => repr_str (fst kv) ++ ": " ++ py_repr (snd kv)) d) ++ "}"
  end.

(** [str(v)]: a str is itself, any other value is its [repr]. *)
Definition py_str (v : pyval) : string :=
  match v with
  | PStr s => s
  | _ => py_repr v
  end.

(** [requests.post(url, json=payload, headers=headers, timeout=t)]:
    the call is recorded and its result comes from [upstream]. *)
Definition requests_post (url : string) (payload : pyval)
    (headers : list (string * string)) (t : Z) : M Response :=
  fun fr =>
    let call := mkPostCall url payload headers t in
    let fr' := mkFrame (outbound fr ++ [call]) (requests_bound fr) in
    match upstream call with
    | PostRaised k msg => (inr (RequestException k msg), fr')
    | PostReturned r => (inl r, fr')
    end.

(** Lines 37-41: the outbound headers. *)
Definition headers : list (string * string) :=
  [("Content-Type", "application/json")] ++
  match REFACT_API_KEY with
  | Some key => if negb (String.eqb key "") then [("Authorization", "Bearer " ++ key)] else []
  | None => []
  end.

(** Lines 46-54: the outbound payload. *)
Definition refact_payload (data prompt : pyval) : M pyval :=
  model <- py_get_default data "model" (PStr "smallcloud/Refact-1_6B-fim") ;;
  max_tokens <- py_get_default data "max_tokens" (PInt 200) ;;
  temperature <- py_get_default data "temperature" (PFloat 0.7%float) ;;
  ret (PDict [("model", model); ("prompt", prompt);
              ("max_tokens", max_tokens); ("temperature", temperature)]).

(** Line 57: the outbound URL. *)
Definition full_refact_url : string :=
  rstrip "/" REFACT_SERVER_URL ++ REFACT_COMPLETION_ENDPOINT.

(** Lines 77-83: the completion text taken from the upstream body. *)
Definition completion_text (refact_response_data : pyval) : M pyval :=
  has_choices <- py_in "choices" refact_response_data ;;
  nonempty <- (if has_choices
               then choices <- py_getitem_str refact_response_data "choices" ;;
                    n <- py_len choices ;;
                    ret (0 <? n)
               else ret false) ;;
  if nonempty then
    choices <- py_getitem_str refact_response_data "choices" ;;
    choice <- py_getitem_0 choices ;;
    text <- py_get choice "text" ;;
    has_message <- (if negb (truthy text) then py_in "message" choice else ret false) ;;
    if has_message then
      message <- py_getitem_str choice "message" ;;
      py_get message "content"
    else ret text
  else ret (PStr (py_str refact_response_data)).

(** Lines 23-91: the body of the [try] statement.  Line 23 is inside
    it, so what [request.get_json()] raises goes to the [except]
    clauses like any other exception. *)
Definition refact_chat_try (req : request) : M (pyval * Z) :=
  data <- get_json req ;;
  if negb (truthy data) then
    ret (jsonify [("error", PStr "No input data provided")], 400)
  else
    prompt <- py_get data "prompt" ;;
    if negb (truthy prompt) then
      ret (jsonify [("error", PStr "Prompt is required")], 400)
    else
      payload <- refact_payload data prompt ;;
      import_requests ;;;
      response <- requests_post full_refact_url payload headers 60 ;;
      raise_for_status response ;;;
      refact_response_data <- response_json response ;;
      text <- completion_text refact_response_data ;;
      ret (jsonify [("success", PBool true);
                    ("prompt", prompt);
                    ("response", text);
                    ("raw_refact_response", refact_response_data)], 200).

(** Lines 93-98: the [except] clauses.  The first one evaluates
    [requests.exceptions.RequestException]; when the exception was
    raised before [import requests] ran, the name is unbound and that
    evaluation raises [UnboundLocalError], which leaves the
    function. *)
Definition refact_chat_except (e : exn) (fr : frame) : outcome :=
  if negb (requests_bound fr) then
    Escaped (UnboundLocalError
      "cannot access local variable 'requests' where it is not associated with a value")
  else if is_request_exception e then
    Returned (jsonify [("error", PStr ("Could not connect to Refact server: " ++ str_exn e))]) 503
  else
    Returned (jsonify [("error", PStr ("An unexpected error occurred: " ++ str_exn e))]) 500.

(** The route [POST /api/refact/chat]: the outcome of the handler and
    the calls of [requests.post] it made.  The two [app.logger.error]
    calls write to the log only and are left out. *)
Definition refact_chat (req : request) : outcome * list post_call :=
  match refact_chat_try req init_frame with
  | (inl (body, status), fr) => (Returned body status, outbound fr)
  | (inr e, fr) => (refact_chat_except e fr, outbound fr)
  end.

End Service.

Arguments headers environ : simpl never.
Arguments full_refact_url environ : simpl never.

(** ** Derived forms used in the statements *)

(** A request the handler accepts: [data] is a JSON object, with items
    [d], whose [prompt] is truthy. *)
Definition valid_request (d : list (string * pyval)) (prompt : pyval) : Prop :=
  dict_get "prompt" d = Some prompt /\ truthy prompt = true.

(** [d.get(key, default)] on the items of a dict. *)
Definition get_or (d : list (string * pyval)) (key : string) (default : pyval) : pyval :=
  match dict_get key d with
  | Some v => v
  | None => default
  end.

(** The dict literal of lines 46-54 for a dict [data] with items [d]. *)
Definition payload_of (d : list (string * pyval)) (prompt : pyval) : pyval :=
  PDict [("model", get_or d "model" (PStr "smallcloud/Refact-1_6B-fim"));
         ("prompt", prompt);
         ("max_tokens", get_or d "max_tokens" (PInt 200));
         ("temperature", get_or d "temperature" (PFloat 0.7%float))].

(** The arguments of line 60's [requests.post]. *)
Definition upstream_call (environ : string -> option string)
    (d : list (string * pyval)) (prompt : pyval) : post_call :=
  mkPostCall (full_refact_url environ) (payload_of d prompt) (headers environ) 60.

(** A reply that passes [raise_for_status] and whose body decodes to
    [body]. *)
Definition successful_reply (res : post_result) (body : pyval) : Prop :=
  exists r, res = PostReturned r /\
            (400 <=? status_code r) && (status_code r <? 600) = false /\
            decoded r = inl body.

(** The completion text as a value: lines 77-83 do not touch the
    frame. *)
Definition completion_of (repr_str : string -> string) (repr_float : float -> string)
    (body : pyval) : pyval + exn :=
  fst (completion_text repr_str repr_float body init_frame).

(** The 200 reply of lines 86-91. *)
Definition success_body (prompt text raw : pyval) : pyval :=
  jsonify [("success", PBool true); ("prompt", prompt);
           ("response", text); ("raw_refact_response", raw)].

(** The 503 reply of line 95. *)
Definition unavailable_body (msg : string) : pyval :=
  jsonify [("error", PStr ("Could not connect to Refact server: " ++ msg))].

(** The bodies from which lines 77-83 take a completion text without
    raising. *)
Definition choice_ok (choice : pyval) : bool :=
  match choice with
  | PDict c =>
      truthy (get_or c "text" PNone) ||
      match dict_get "message" c with
      | None => true
      | Some (PDict _) => true
      | Some _ => false
      end
  | _ => false
  end.

Definition extractable (body : pyval) : bool :=
  match body with
  | PDict d =>
      match dict_get "choices" d with
      | None => true
      | Some (PList []) => true
      | Some (PList (choice :: _)) => choice_ok choice
      | Some (PStr s) => String.eqb s ""
      | Some (PDict []) => true
      | Some _ => false
      end
  | PList l => negb (existsb (is_str "choices") l)
  | PStr s => negb (str_contains "choices" s)
  | _ => false
  end.

(** ** Sample environments, runtimes and upstreams *)

Definition no_environ : string -> option string := fun _ => None.

Definition environ_of (vars : list (string * string)) : string -> option string :=
  fun name =>
    (fix find (l : list (string * string)) : option string :=
       match l with
       | [] => None
       | (n, v) :: l' => if String.eqb name n then Some v else find l'
       end) vars.

(** [repr] of a str that has no quote, backslash or unprintable
    character. *)
Definition quote_repr (s : string) : string := "'" ++ s ++ "'".

(** The sample bodies hold no float other than the default. *)
Definition sample_repr_float (f : float) : string := "0.7".

(** An upstream body with both a [text] and a [message.content]. *)
Definition sample_body_text_and_message : pyval :=
  PDict [("choices",
          PList [PDict [("text", PStr "first");
                        ("message", PDict [("content", PStr "second")])]])].

(** A reply with status 300 (Multiple Choices), which [requests] hands
    back as it is, and a body of the expected shape. *)
Definition sample_reply_300 : Response :=
  mkResponse 300 "" (inl (PDict [("choices", PList [PDict [("text", PStr "hi")]])])).

(** A reply with status 200 whose [choices] is a number. *)
Definition sample_reply_choices_int : Response :=
  mkResponse 200 "" (inl (PDict [("choices", PInt 5)])).

Definition replies (r : Response) : post_call -> post_result := fun _ => PostReturned r.

Definition fails (k : request_exception) (msg : string) : post_call -> post_result :=
  fun _ => PostRaised k msg.

(** ** Running the monad *)

Ltac run_step :=
  match goal with
  | |- context [match ?x with _ => _ end] =>
      match x with
      | context [match _ with _ => _ end] => fail 1
      | _ => destruct x eqn:?
      end
  end.

Ltac unfold_ops :=
  unfold py_get, py_get_default, py_in, py_getitem_str, py_getitem_0, py_len,
    import_requests, raise_for_status, response_json, requests_post,
    bind, ret, raise in *.

(** Enters the [try] statement on a request whose body decoded. *)
Ltac enter_try :=
  unfold refact_chat, refact_chat_try;
  match goal with
  | |- context [bind (get_json (JsonBody ?data)) ?k] =>
      change (bind (get_json (JsonBody data)) k) with (k data)
  end;
  cbv beta.

Lemma completion_text_frame (rs : string -> string) (rf : float -> string)
    (body : pyval) (fr : frame) :
  completion_text rs rf body fr = (completion_of rs rf body, fr).
Proof.
  unfold completion_of, completion_text.
  unfold_ops.
  repeat (simpl; try reflexivity; run_step).
Qed.

(** The 500 reply of line 98. *)
Definition unexpected_body (msg : string) : pyval :=
  jsonify [("error", PStr ("An unexpected error occurred: " ++ msg))].

(** Lines 77-83 call nothing of [requests], so what they raise is caught
    by the second [except] clause. *)
Lemma completion_of_not_request_exception (rs : string -> string) (rf : float -> string)
    (body : pyval) (e : exn) :
  completion_of rs rf body = inr e -> is_request_exception e = false.
Proof.
  unfold completion_of, completion_text.
  unfold_ops.
  repeat (simpl; try (intros [= <-]; reflexivity); try discriminate; run_step).
Qed.

(** What a run on a valid request amounts to: one call of
    [requests.post], then a case analysis on its result. *)
Lemma refact_chat_valid (env : string -> option string) (rs : string -> string)
    (rf : float -> string) (up : post_call -> post_result)
    (d : list (string * pyval)) (prompt : pyval) :
  dict_get "prompt" d = Some prompt ->
  truthy prompt = true ->
  refact_chat env rs rf up (PDict d) =
    (match up (upstream_call env d prompt) with
     | PostRaised _ msg => Returned (unavailable_body msg) 503
     | PostReturned r =>
         if (400 <=? status_code r) && (status_code r <? 600)
         then Returned (unavailable_body (http_error_msg r)) 503
         else match decoded r with
              | inr msg => Returned (unavailable_body msg) 503
              | inl body =>
                  match completion_of rs rf body with
                  | inl text => Returned (success_body prompt text body) 200
                  | inr e => Returned (unexpected_body (str_exn e)) 500
                  end
              end
     end, [upstream_call env d prompt]).
Proof.
  intros Hp Ht.
  assert (Hd : truthy (PDict d) = true) by (destruct d; [discriminate | reflexivity]).
  enter_try.
  rewrite Hd. cbn [negb].
  unfold py_get at 1. unfold bind at 1. unfold ret at 1. rewrite Hp, Ht. cbn [negb].
  unfold refact_payload, py_get_default, import_requests, requests_post.
  unfold bind at 1. unfold bind at 1. unfold bind at 1. unfold bind at 1.
  unfold ret at 1 2 3 4. unfold bind at 1. unfold bind at 1. unfold bind at 1.
  cbn [outbound requests_bound init_frame app].
  fold (get_or d "model" (PStr "smallcloud/Refact-1_6B-fim")).
  fold (get_or d "max_tokens" (PInt 200)).
  fold (get_or d "temperature" (PFloat 0.7%float)).
  fold (payload_of d prompt).
  fold (upstream_call env d prompt).
  destruct (up (upstream_call env d prompt)) as [k msg | r]; [reflexivity |].
  unfold raise_for_status, response_json, bind, ret, raise.
  destruct ((400 <=? status_code r) && (status_code r <? 600)); [reflexivity |].
  destruct (decoded r) as [body | msg]; [| reflexivity].
  rewrite completion_text_frame.
  destruct (completion_of rs rf body) as [text | e] eqn:He; [reflexivity |].
  unfold refact_chat_except. cbn [requests_bound negb].
  rewrite (completion_of_not_request_exception rs rf body e He). reflexivity.
Qed.

(** ** The completion text, shape by shape *)

Section Completion.

Variable rs : string -> string.
Variable rf : float -> string.

Ltac clash :=
  repeat match goal with
         | H : negb (truthy ?p) = _ |- _ => destruct (truthy p); simpl in H |- *
         end;
  solve [ discriminate | intros; discriminate | intros; reflexivity
        | intros;
          match goal with
          | H : (0 <? Z.of_nat (String.length ?s)) = false |- _ =>
              destruct s; [reflexivity | cbn [String.length] in H; apply Z.ltb_ge in H; lia]
          end ].

Ltac run_completion :=
  unfold completion_of, completion_text; unfold_ops; simpl.

(** No [choices] key: the [else] branch of line 83. *)
Lemma completion_of_no_choices (d : list (string * pyval)) :
  dict_get "choices" d = None ->
  completion_of rs rf (PDict d) = inl (PStr (py_str rs rf (PDict d))).
Proof. intros H. run_completion. rewrite H. reflexivity. Qed.

(** [choices] is the empty list: the [else] branch again. *)
Lemma completion_of_empty_choices (d : list (string * pyval)) :
  dict_get "choices" d = Some (PList []) ->
  completion_of rs rf (PDict d) = inl (PStr (py_str rs rf (PDict d))).
Proof. intros H. run_completion. rewrite H. reflexivity. Qed.

(** A truthy [choices[0].text] is the completion text, whatever else
    [choices[0]] holds. *)
Lemma completion_of_text (d c : list (string * pyval)) (rest : list pyval) (t : pyval) :
  dict_get "choices" d = Some (PList (PDict c :: rest)) ->
  dict_get "text" c = Some t ->
  truthy t = true ->
  completion_of rs rf (PDict d) = inl t.
Proof.
  intros Hc Ht Htr. run_completion. rewrite Hc. simpl.
  rewrite Ht, Htr. reflexivity.
Qed.

(** A falsy or missing [text] and a dict [message]: the completion
    text is [message.get("content")]. *)
Lemma completion_of_message (d c m : list (string * pyval)) (rest : list pyval) :
  dict_get "choices" d = Some (PList (PDict c :: rest)) ->
  truthy (get_or c "text" PNone) = false ->
  dict_get "message" c = Some (PDict m) ->
  completion_of rs rf (PDict d) = inl (get_or m "content" PNone).
Proof.
  intros Hc Ht Hm. run_completion. rewrite Hc. simpl.
  unfold get_or in Ht. rewrite Ht. simpl. rewrite Hm. reflexivity.
Qed.

(** A falsy or missing [text] and no [message]: the completion text is
    what [get("text")] gave, [None] when the key is missing. *)
Lemma completion_of_neither (d c : list (string * pyval)) (rest : list pyval) :
  dict_get "choices" d = Some (PList (PDict c :: rest)) ->
  truthy (get_or c "text" PNone) = false ->
  dict_get "message" c = None ->
  completion_of rs rf (PDict d) = inl (get_or c "text" PNone).
Proof.
  intros Hc Ht Hm. run_completion. rewrite Hc. simpl.
  unfold get_or in *. rewrite Ht. simpl. rewrite Hm. reflexivity.
Qed.

(** [extractable] is exactly the set of bodies on which lines 77-83
    raise nothing. *)
Lemma extractable_spec (body : pyval) :
  extractable body = true <-> exists text, completion_of rs rf body = inl text.
Proof.
  unfold extractable, choice_ok, get_or.
  run_completion.
  split.
  - repeat (simpl; try discriminate; try (intros _; eexists; reflexivity); run_step).
    all: clash.
  - intros [text H]. revert H.
    repeat (simpl; try discriminate; try (intros _; reflexivity); run_step).
    all: clash.
Qed.

End Completion.

(** ** Rejected requests (lines 23-35) *)

(** A body that decodes to a falsy [data] ([null], [{}], [[]], [0],
    [""], [false]) is answered by line 25, before anything else
    runs. *)
Lemma refact_chat_falsy_data (env : string -> option string) (rs : string -> string)
    (rf : float -> string) (up : post_call -> post_result) (data : pyval) :
  truthy data = false ->
  refact_chat env rs rf up data =
    (Returned (jsonify [("error", PStr "No input data provided")]) 400, []).
Proof.
  intros H. enter_try. rewrite H. reflexivity.
Qed.

(** A dict [data] whose [prompt] is missing or falsy is answered by
    line 35. *)
Lemma refact_chat_falsy_prompt (env : string -> option string) (rs : string -> string)
    (rf : float -> string) (up : post_call -> post_result) (d : list (string * pyval)) :
  truthy (PDict d) = true ->
  truthy (get_or d "prompt" PNone) = false ->
  refact_chat env rs rf up (PDict d) =
    (Returned (jsonify [("error", PStr "Prompt is required")]) 400, []).
Proof.
  intros Hd Hp. enter_try. rewrite Hd.
  unfold py_get, bind, ret. fold (get_or d "prompt" PNone). rewrite Hp. reflexivity.
Qed.

(** A truthy [data] that is not a dict has no [get]: line 27 raises
    [AttributeError] before [import requests] has run, the first
    [except] clause cannot name its class, and [UnboundLocalError]
    leaves the handler. *)
Lemma refact_chat_not_a_dict (env : string -> option string) (rs : string -> string)
    (rf : float -> string) (up : post_call -> post_result) (data : pyval) :
  truthy data = true ->
  (forall d, data <> PDict d) ->
  exists msg, refact_chat env rs rf up data = (Escaped (UnboundLocalError msg), []).
Proof.
  intros Ht Hd. enter_try. rewrite Ht.
  destruct data; try (eexists; reflexivity).
  exfalso. apply (Hd d). reflexivity.
Qed.

(** Once the body has decoded: when it is [null], or an object without
    a [prompt] field, or an object whose [prompt] is the empty string,
    the handler returns status 400 with a body whose only field is
    [error], and it makes no call of [requests.post]. *)
Lemma decoded_body_without_prompt_is_400 (env : string -> option string)
    (rs : string -> string) (rf : float -> string) (up : post_call -> post_result)
    (data : pyval) :
  data = PNone \/
  (exists d, data = PDict d /\
             (dict_get "prompt" d = None \/ dict_get "prompt" d = Some (PStr ""))) ->
  exists msg,
    refact_chat env rs rf up data = (Returned (jsonify [("error", PStr msg)]) 400, []).
Proof.
  intros [-> | [d [-> Hp]]].
  - eexists. apply refact_chat_falsy_data. reflexivity.
  - destruct (truthy (PDict d)) eqn:Hd.
    + eexists. apply refact_chat_falsy_prompt; [exact Hd |].
      unfold get_or. destruct Hp as [-> | ->]; reflexivity.
    + eexists. apply refact_chat_falsy_data. exact Hd.
Qed.

(** A request on which [request.get_json()] raises: the exception is
    raised at line 23, before [import requests] has run, so the first
    [except] clause raises [UnboundLocalError], which leaves the
    handler.  No reply is returned and no call is made. *)
Lemma refact_chat_no_json (env : string -> option string) (rs : string -> string)
    (rf : float -> string) (up : post_call -> post_result) (e : exn) :
  refact_chat env rs rf up (NoJson e) =
    (Escaped (UnboundLocalError
       "cannot access local variable 'requests' where it is not associated with a value"),
     []).
Proof. reflexivity. Qed.

(** C1.  The run on a request with an empty body, on which
    [request.get_json()] raises werkzeug's [BadRequest]: the handler
    does not return the 400 of line 25.  [UnboundLocalError] leaves it,
    without a call of [requests.post], and this is so whatever
    [get_json] raises.  The requests whose body decodes are answered as
    C1 says: [null], an object without [prompt] and an object whose
    [prompt] is the empty string get status 400 with the single field
    [error] and no call. *)
Theorem C1_absent_body_escapes (env : string -> option string) (rs : string -> string)
    (rf : float -> string) (up : post_call -> post_result) :
  refact_chat env rs rf up
    (NoJson (HTTPException 400 "Failed to decode JSON object")) =
    (Escaped (UnboundLocalError
       "cannot access local variable 'requests' where it is not associated with a value"),
     []) /\
  (forall e body status,
      fst (refact_chat env rs rf up (NoJson e)) <> Returned body status) /\
  (forall d,
      dict_get "prompt" d = None \/ dict_get "prompt" d = Some (PStr "") ->
      exists msg,
        refact_chat env rs rf up (PDict d) =
          (Returned (jsonify [("error", PStr msg)]) 400, [])) /\
  (exists msg,
      refact_chat env rs rf up PNone = (Returned (jsonify [("error", PStr msg)]) 400, [])).
Proof.
  split; [reflexivity |].
  split.
  { intros e body status H. rewrite refact_chat_no_json in H. discriminate H. }
  split.
  - intros d Hp.
    apply decoded_body_without_prompt_is_400. right. exists d. split; [reflexivity | exact Hp].
  - apply decoded_body_without_prompt_is_400. left. reflexivity.
Qed.

Lemma C1_absent_body_escapes_witness :
  (dict_get "prompt" [("model", PStr "m")] = None \/
   dict_get "prompt" [("model", PStr "m")] = Some (PStr "")) /\
  exists msg,
    refact_chat no_environ quote_repr sample_repr_float (fails ConnectionError "down")
      (PDict [("model", PStr "m")]) =
    (Returned (jsonify [("error", PStr msg)]) 400, []).
Proof.
  assert (H : dict_get "prompt" [("model", PStr "m")] = None \/
              dict_get "prompt" [("model", PStr "m")] = Some (PStr ""))
    by (left; reflexivity).
  split; [exact H |].
  exact (proj1 (proj2 (proj2
           (C1_absent_body_escapes no_environ quote_repr sample_repr_float
              (fails ConnectionError "down"))))
           [("model", PStr "m")] H).
Defined.

(** ** Replies to valid requests (lines 60-98) *)

(** On a successful upstream reply the handler returns the 200 body when
    lines 77-83 give a text, and the 500 body when they raise. *)
Lemma refact_chat_reply (env : string -> option string) (rs : string -> string)
    (rf : float -> string) (up : post_call -> post_result)
    (d : list (string * pyval)) (prompt body : pyval) :
  valid_request d prompt ->
  successful_reply (up (upstream_call env d prompt)) body ->
  fst (refact_chat env rs rf up (PDict d)) =
    match completion_of rs rf body with
    | inl text => Returned (success_body prompt text body) 200
    | inr e => Returned (unexpected_body (str_exn e)) 500
    end.
Proof.
  intros [Hp Ht] [r [Hr [Hs Hb]]].
  rewrite (refact_chat_valid env rs rf up d prompt Hp Ht).
  rewrite Hr, Hs, Hb. reflexivity.
Qed.

(** The spec's testable property: a body without [choices] makes the
    [response] field the stringified body. *)
Lemma response_is_str_without_choices (env : string -> option string)
    (rs : string -> string) (rf : float -> string) (up : post_call -> post_result)
    (d b : list (string * pyval)) (prompt : pyval) :
  valid_request d prompt ->
  successful_reply (up (upstream_call env d prompt)) (PDict b) ->
  dict_get "choices" b = None \/ dict_get "choices" b = Some (PList []) ->
  fst (refact_chat env rs rf up (PDict d)) =
    Returned (success_body prompt (PStr (py_str rs rf (PDict b))) (PDict b)) 200.
Proof.
  intros Hv Hr Hc.
  rewrite (refact_chat_reply env rs rf up d prompt (PDict b) Hv Hr).
  destruct Hc as [Hc | Hc].
  - rewrite (completion_of_no_choices rs rf b Hc). reflexivity.
  - rewrite (completion_of_empty_choices rs rf b Hc). reflexivity.
Qed.

(** C2.  The run on the upstream body [{"choices": [{}]}], whose
    [choices[0]] carries neither [text] nor [message]: the [response]
    field of the 200 reply is [None], not the stringified body.  Line 78
    binds [completion_text] to [None], line 79 finds no [message], and
    the [else] branch of line 83 belongs to the outer test only. *)
Theorem C2_choice_without_fields_gives_none (env : string -> option string)
    (rs : string -> string) (rf : float -> string) :
  let body := PDict [("choices", PList [PDict []])] in
  fst (refact_chat env rs rf (replies (mkResponse 200 "" (inl body)))
         (PDict [("prompt", PStr "hello")])) =
    Returned (success_body (PStr "hello") PNone body) 200 /\
  PNone <> PStr (py_str rs rf body).
Proof.
  intros body.
  split; [| discriminate].
  rewrite (refact_chat_reply env rs rf _ [("prompt", PStr "hello")] (PStr "hello") body).
  - reflexivity.
  - split; reflexivity.
  - eexists. split; [reflexivity |]. split; reflexivity.
Qed.

(** C3.  On a valid request and a successful reply: the body
    [{"choices": [{"text": "hi"}]}] gives the [response] field ["hi"];
    the body [{"choices": [{"message": {"content": "hi"}}]}] gives
    ["hi"] too; a truthy [choices[0].text] is the [response] whatever
    [choices[0].message] holds; and [message.content] is read only when
    [text] is missing or falsy. *)
Theorem C3_text_then_message_content (env : string -> option string)
    (rs : string -> string) (rf : float -> string) (up : post_call -> post_result)
    (d : list (string * pyval)) (prompt : pyval) :
  valid_request d prompt ->
  (forall body,
      body = PDict [("choices", PList [PDict [("text", PStr "hi")]])] ->
      successful_reply (up (upstream_call env d prompt)) body ->
      fst (refact_chat env rs rf up (PDict d)) =
        Returned (success_body prompt (PStr "hi") body) 200) /\
  (forall body,
      body = PDict [("choices", PList [PDict [("message", PDict [("content", PStr "hi")])]])] ->
      successful_reply (up (upstream_call env d prompt)) body ->
      fst (refact_chat env rs rf up (PDict d)) =
        Returned (success_body prompt (PStr "hi") body) 200) /\
  (forall b c rest t,
      successful_reply (up (upstream_call env d prompt)) (PDict b) ->
      dict_get "choices" b = Some (PList (PDict c :: rest)) ->
      dict_get "text" c = Some t ->
      truthy t = true ->
      fst (refact_chat env rs rf up (PDict d)) =
        Returned (success_body prompt t (PDict b)) 200) /\
  (forall b c rest m,
      successful_reply (up (upstream_call env d prompt)) (PDict b) ->
      dict_get "choices" b = Some (PList (PDict c :: rest)) ->
      truthy (get_or c "text" PNone) = false ->
      dict_get "message" c = Some (PDict m) ->
      fst (refact_chat env rs rf up (PDict d)) =
        Returned (success_body prompt (get_or m "content" PNone) (PDict b)) 200).
Proof.
  intros Hv.
  assert (Htext : forall b c rest t,
      successful_reply (up (upstream_call env d prompt)) (PDict b) ->
      dict_get "choices" b = Some (PList (PDict c :: rest)) ->
      dict_get "text" c = Some t ->
      truthy t = true ->
      fst (refact_chat env rs rf up (PDict d)) =
        Returned (success_body prompt t (PDict b)) 200).
  { intros b c rest t Hr Hc Ht Htr.
    rewrite (refact_chat_reply env rs rf up d prompt (PDict b) Hv Hr).
    rewrite (completion_of_text rs rf b c rest t Hc Ht Htr). reflexivity. }
  assert (Hmsg : forall b c rest m,
      successful_reply (up (upstream_call env d prompt)) (PDict b) ->
      dict_get "choices" b = Some (PList (PDict c :: rest)) ->
      truthy (get_or c "text" PNone) = false ->
      dict_get "message" c = Some (PDict m) ->
      fst (refact_chat env rs rf up (PDict d)) =
        Returned (success_body prompt (get_or m "content" PNone) (PDict b)) 200).
  { intros b c rest m Hr Hc Ht Hm.
    rewrite (refact_chat_reply env rs rf up d prompt (PDict b) Hv Hr).
    rewrite (completion_of_message rs rf b c m rest Hc Ht Hm). reflexivity. }
  repeat split.
  - intros body -> Hr.
    apply (Htext _ [("text", PStr "hi")] [] (PStr "hi") Hr); reflexivity.
  - intros body -> Hr.
    apply (Hmsg _ [("message", PDict [("content", PStr "hi")])] []
             [("content", PStr "hi")] Hr); reflexivity.
  - exact Htext.
  - exact Hmsg.
Qed.

Lemma C3_text_then_message_content_witness :
  valid_request [("prompt", PStr "hello")] (PStr "hello") /\
  fst (refact_chat no_environ quote_repr sample_repr_float
         (replies (mkResponse 200 "" (inl sample_body_text_and_message)))
         (PDict [("prompt", PStr "hello")])) =
    Returned (success_body (PStr "hello") (PStr "first") sample_body_text_and_message) 200.
Proof.
  assert (Hv : valid_request [("prompt", PStr "hello")] (PStr "hello"))
    by (split; reflexivity).
  split; [exact Hv |].
  refine (proj1 (proj2 (proj2
            (C3_text_then_message_content no_environ quote_repr sample_repr_float
               (replies (mkResponse 200 "" (inl sample_body_text_and_message)))
               [("prompt", PStr "hello")] (PStr "hello") Hv)))
          _ [("text", PStr "first"); ("message", PDict [("content", PStr "second")])]
          [] (PStr "first") _ _ _ _).
  - eexists. split; [reflexivity |]. split; reflexivity.
  - reflexivity.
  - reflexivity.
  - reflexivity.
Defined.

(** ** The outbound request (lines 37-60) *)

(** A valid request makes exactly the call [upstream_call], whatever the
    upstream answers. *)
Lemma refact_chat_calls (env : string -> option string) (rs : string -> string)
    (rf : float -> string) (up : post_call -> post_result)
    (d : list (string * pyval)) (prompt : pyval) :
  valid_request d prompt ->
  snd (refact_chat env rs rf up (PDict d)) = [upstream_call env d prompt].
Proof.
  intros [Hp Ht]. rewrite (refact_chat_valid env rs rf up d prompt Hp Ht). reflexivity.
Qed.

(** C4.  On a valid request the one outbound payload holds, for [model],
    [max_tokens] and [temperature], the caller's value when the request
    has the field and otherwise the default: the model name
    ["smallcloud/Refact-1_6B-fim"], [200] and [0.7]. *)
Theorem C4_payload_defaults (env : string -> option string) (rs : string -> string)
    (rf : float -> string) (up : post_call -> post_result)
    (d : list (string * pyval)) (prompt : pyval) :
  valid_request d prompt ->
  exists call model max_tokens temperature,
    snd (refact_chat env rs rf up (PDict d)) = [call] /\
    post_json call = PDict [("model", model); ("prompt", prompt);
                            ("max_tokens", max_tokens); ("temperature", temperature)] /\
    model = match dict_get "model" d with
            | Some v => v
            | None => PStr "smallcloud/Refact-1_6B-fim"
            end /\
    max_tokens = match dict_get "max_tokens" d with
                 | Some v => v
                 | None => PInt 200
                 end /\
    temperature = match dict_get "temperature" d with
                  | Some v => v
                  | None => PFloat 0.7%float
                  end.
Proof.
  intros Hv.
  exists (upstream_call env d prompt).
  exists (get_or d "model" (PStr "smallcloud/Refact-1_6B-fim")).
  exists (get_or d "max_tokens" (PInt 200)).
  exists (get_or d "temperature" (PFloat 0.7%float)).
  split; [apply refact_chat_calls; exact Hv |].
  repeat split.
Qed.

(** The run of C4 on [{"prompt": "hello"}]. *)
Lemma C4_payload_defaults_witness :
  valid_request [("prompt", PStr "hello")] (PStr "hello") /\
  map post_json
    (snd (refact_chat no_environ quote_repr sample_repr_float (fails Timeout "timed out")
            (PDict [("prompt", PStr "hello")]))) =
    [PDict [("model", PStr "smallcloud/Refact-1_6B-fim"); ("prompt", PStr "hello");
            ("max_tokens", PInt 200); ("temperature", PFloat 0.7%float)]].
Proof.
  assert (Hv : valid_request [("prompt", PStr "hello")] (PStr "hello"))
    by (split; reflexivity).
  split; [exact Hv |].
  destruct (C4_payload_defaults no_environ quote_repr sample_repr_float
              (fails Timeout "timed out") [("prompt", PStr "hello")] (PStr "hello") Hv)
    as [call [model [max_tokens [temperature [Hc [Hj [Hm [Hk Ht]]]]]]]].
  rewrite Hc. cbn [map]. rewrite Hj, Hm, Hk, Ht. reflexivity.
Defined.

(** C7.  On a valid request the handler calls [requests.post] exactly
    once; the URL is [REFACT_SERVER_URL] without its trailing slashes
    followed by ["/v1/completions"], and the timeout is 60. *)
Theorem C7_one_post_fixed_path_and_timeout (env : string -> option string)
    (rs : string -> string) (rf : float -> string) (up : post_call -> post_result)
    (d : list (string * pyval)) (prompt : pyval) :
  valid_request d prompt ->
  exists payload hdrs,
    snd (refact_chat env rs rf up (PDict d)) =
      [mkPostCall (rstrip "/" (REFACT_SERVER_URL env) ++ "/v1/completions") payload hdrs 60].
Proof.
  intros Hv. exists (payload_of d prompt), (headers env).
  apply refact_chat_calls. exact Hv.
Qed.

Lemma C7_one_post_fixed_path_and_timeout_witness :
  valid_request [("prompt", PStr "hello")] (PStr "hello") /\
  map post_url
    (snd (refact_chat (environ_of [("REFACT_SERVER_URL", "http://refact:8008/")])
            quote_repr sample_repr_float (fails Timeout "timed out")
            (PDict [("prompt", PStr "hello")]))) =
    ["http://refact:8008/v1/completions"].
Proof.
  assert (Hv : valid_request [("prompt", PStr "hello")] (PStr "hello"))
    by (split; reflexivity).
  split; [exact Hv |].
  destruct (C7_one_post_fixed_path_and_timeout
              (environ_of [("REFACT_SERVER_URL", "http://refact:8008/")])
              quote_repr sample_repr_float (fails Timeout "timed out")
              [("prompt", PStr "hello")] (PStr "hello") Hv)
    as [payload [hdrs Hc]].
  rewrite Hc. reflexivity.
Defined.

(** The headers of lines 37-41, case by case. *)
Lemma headers_with_key (env : string -> option string) (key : string) :
  env "REFACT_API_KEY" = Some key ->
  key <> "" ->
  headers env = [("Content-Type", "application/json"); ("Authorization", "Bearer " ++ key)].
Proof.
  intros He Hk. unfold headers, REFACT_API_KEY. rewrite He.
  destruct (String.eqb key "") eqn:E; [| reflexivity].
  apply String.eqb_eq in E. contradiction.
Qed.

Lemma headers_without_key (env : string -> option string) :
  env "REFACT_API_KEY" = None \/ env "REFACT_API_KEY" = Some "" ->
  headers env = [("Content-Type", "application/json")].
Proof.
  intros [He | He]; unfold headers, REFACT_API_KEY; rewrite He; reflexivity.
Qed.

(** C8.  The one outbound call of a valid request carries an
    [Authorization] header exactly when [REFACT_API_KEY] is set and not
    empty, and its value is then ["Bearer "] followed by the key; when
    the key is unset or empty the headers are [Content-Type:
    application/json] alone. *)
Theorem C8_bearer_iff_api_key (env : string -> option string) (rs : string -> string)
    (rf : float -> string) (up : post_call -> post_result)
    (d : list (string * pyval)) (prompt : pyval) :
  valid_request d prompt ->
  exists call,
    snd (refact_chat env rs rf up (PDict d)) = [call] /\
    (forall v, In ("Authorization", v) (post_headers call) <->
               exists key, env "REFACT_API_KEY" = Some key /\ key <> "" /\
                           v = "Bearer " ++ key) /\
    (env "REFACT_API_KEY" = None \/ env "REFACT_API_KEY" = Some "" ->
     post_headers call = [("Content-Type", "application/json")]).
Proof.
  intros Hv. exists (upstream_call env d prompt).
  split; [apply refact_chat_calls; exact Hv |].
  cbn [upstream_call post_headers].
  split; [| apply headers_without_key].
  intros v. split.
  - intros Hin.
    destruct (env "REFACT_API_KEY") as [key |] eqn:He.
    + destruct (String.eqb key "") eqn:E.
      * apply String.eqb_eq in E. subst key.
        rewrite (headers_without_key env (or_intror He)) in Hin.
        destruct Hin as [Hin | []]. discriminate Hin.
      * apply String.eqb_neq in E.
        rewrite (headers_with_key env key He E) in Hin.
        destruct Hin as [Hin | [Hin | []]]; [discriminate Hin |].
        injection Hin as <-. exists key. repeat split. exact E.
    + rewrite (headers_without_key env (or_introl He)) in Hin.
      destruct Hin as [Hin | []]. discriminate Hin.
  - intros [key [He [Hk ->]]].
    rewrite (headers_with_key env key He Hk). right. left. reflexivity.
Qed.

Lemma C8_bearer_iff_api_key_witness :
  valid_request [("prompt", PStr "hello")] (PStr "hello") /\
  map post_headers
    (snd (refact_chat (environ_of [("REFACT_API_KEY", "")])
            quote_repr sample_repr_float (fails Timeout "timed out")
            (PDict [("prompt", PStr "hello")]))) =
    [[("Content-Type", "application/json")]].
Proof.
  assert (Hv : valid_request [("prompt", PStr "hello")] (PStr "hello"))
    by (split; reflexivity).
  split; [exact Hv |].
  destruct (C8_bearer_iff_api_key (environ_of [("REFACT_API_KEY", "")])
              quote_repr sample_repr_float (fails Timeout "timed out")
              [("prompt", PStr "hello")] (PStr "hello") Hv)
    as [call [Hc [_ Hnone]]].
  rewrite Hc. cbn [map]. rewrite Hnone; [reflexivity |].
  right. reflexivity.
Defined.

(** The run with a key configured. *)
Example headers_with_sample_key :
  map post_headers
    (snd (refact_chat (environ_of [("REFACT_API_KEY", "s3cret")])
            quote_repr sample_repr_float (fails Timeout "timed out")
            (PDict [("prompt", PStr "hello")]))) =
    [[("Content-Type", "application/json"); ("Authorization", "Bearer s3cret")]].
Proof. reflexivity. Qed.

(** C9.  The outbound payload of a valid request has exactly the keys
    [model], [prompt], [max_tokens] and [temperature], in that order.
    Two valid requests that agree on these four fields make the same
    outbound call and get the same outcome: no other field of the
    request is forwarded or looked at. *)
Theorem C9_only_four_fields_forwarded (env : string -> option string)
    (rs : string -> string) (rf : float -> string) (up : post_call -> post_result)
    (d1 d2 : list (string * pyval)) (p1 p2 : pyval) :
  valid_request d1 p1 ->
  valid_request d2 p2 ->
  (forall k, In k ["model"; "prompt"; "max_tokens"; "temperature"] ->
             dict_get k d1 = dict_get k d2) ->
  (exists call fields,
      snd (refact_chat env rs rf up (PDict d1)) = [call] /\
      post_json call = PDict fields /\
      dict_keys fields = ["model"; "prompt"; "max_tokens"; "temperature"]) /\
  refact_chat env rs rf up (PDict d1) = refact_chat env rs rf up (PDict d2).
Proof.
  intros Hv1 Hv2 Hag.
  split.
  - exists (upstream_call env d1 p1). eexists.
    split; [apply refact_chat_calls; exact Hv1 |].
    split; reflexivity.
  - destruct Hv1 as [Hp1 Ht1]. destruct Hv2 as [Hp2 Ht2].
    assert (Hp : p1 = p2).
    { rewrite (Hag "prompt") in Hp1 by (simpl; tauto). congruence. }
    subst p2.
    rewrite (refact_chat_valid env rs rf up d1 p1 Hp1 Ht1).
    rewrite (refact_chat_valid env rs rf up d2 p1 Hp2 Ht2).
    assert (Hc : upstream_call env d1 p1 = upstream_call env d2 p1).
    { unfold upstream_call, payload_of, get_or.
      rewrite (Hag "model") by (simpl; tauto).
      rewrite (Hag "max_tokens") by (simpl; tauto).
      rewrite (Hag "temperature") by (simpl; tauto).
      reflexivity. }
    rewrite Hc. reflexivity.
Qed.

Lemma C9_only_four_fields_forwarded_witness :
  valid_request [("prompt", PStr "hello"); ("stream", PBool true)] (PStr "hello") /\
  valid_request [("user", PStr "eve"); ("prompt", PStr "hello")] (PStr "hello") /\
  refact_chat no_environ quote_repr sample_repr_float (fails Timeout "timed out")
    (PDict [("prompt", PStr "hello"); ("stream", PBool true)]) =
  refact_chat no_environ quote_repr sample_repr_float (fails Timeout "timed out")
    (PDict [("user", PStr "eve"); ("prompt", PStr "hello")]).
Proof.
  assert (Hv1 : valid_request [("prompt", PStr "hello"); ("stream", PBool true)] (PStr "hello"))
    by (split; reflexivity).
  assert (Hv2 : valid_request [("user", PStr "eve"); ("prompt", PStr "hello")] (PStr "hello"))
    by (split; reflexivity).
  split; [exact Hv1 |]. split; [exact Hv2 |].
  refine (proj2 (C9_only_four_fields_forwarded no_environ quote_repr sample_repr_float
                   (fails Timeout "timed out") _ _ _ _ Hv1 Hv2 _)).
  intros k [<- | [<- | [<- | [<- | []]]]]; reflexivity.
Defined.

(** ** Upstream failures (lines 60-61 and 93-95) *)

(** Not every status outside 200-299 is a failure for the handler: a
    reply with status 300 passes [raise_for_status], which raises for
    4xx and 5xx only, and the handler answers 200. *)
Lemma C5_status_300_is_answered_200 :
  ~ (200 <= status_code sample_reply_300 < 300) /\
  fst (refact_chat no_environ quote_repr sample_repr_float (replies sample_reply_300)
         (PDict [("prompt", PStr "hello")])) =
    Returned (success_body (PStr "hello") (PStr "hi")
                (PDict [("choices", PList [PDict [("text", PStr "hi")]])])) 200.
Proof.
  split.
  - cbn [status_code sample_reply_300]. lia.
  - reflexivity.
Qed.

(** C5, amended.  On a valid request, when [requests.post] raises (a
    connection error, a timeout or any other [RequestException]) or
    returns a reply whose status is 4xx or 5xx, the handler returns
    status 503 with a body whose [error] field is ["Could not connect to
    Refact server: "] followed by the message of the failure. *)
Theorem C5_upstream_failure_is_503 (env : string -> option string)
    (rs : string -> string) (rf : float -> string) (up : post_call -> post_result)
    (d : list (string * pyval)) (prompt : pyval) (msg : string) :
  valid_request d prompt ->
  (exists k, up (upstream_call env d prompt) = PostRaised k msg) \/
  (exists r, up (upstream_call env d prompt) = PostReturned r /\
             400 <= status_code r < 600 /\ http_error_msg r = msg) ->
  fst (refact_chat env rs rf up (PDict d)) =
    Returned (jsonify [("error", PStr ("Could not connect to Refact server: " ++ msg))]) 503.
Proof.
  intros [Hp Ht] H.
  rewrite (refact_chat_valid env rs rf up d prompt Hp Ht).
  destruct H as [[k Hk] | [r [Hr [Hs Hm]]]].
  - rewrite Hk. reflexivity.
  - rewrite Hr.
    replace ((400 <=? status_code r) && (status_code r <? 600)) with true.
    + rewrite Hm. reflexivity.
    + symmetry. apply andb_true_iff. split; [apply Z.leb_le | apply Z.ltb_lt]; lia.
Qed.

Lemma C5_upstream_failure_is_503_witness :
  valid_request [("prompt", PStr "hello")] (PStr "hello") /\
  fst (refact_chat no_environ quote_repr sample_repr_float
         (replies (mkResponse 502 "502 Server Error: Bad Gateway" (inr "")))
         (PDict [("prompt", PStr "hello")])) =
    Returned (jsonify [("error",
                PStr "Could not connect to Refact server: 502 Server Error: Bad Gateway")]) 503.
Proof.
  assert (Hv : valid_request [("prompt", PStr "hello")] (PStr "hello"))
    by (split; reflexivity).
  split; [exact Hv |].
  apply (C5_upstream_failure_is_503 no_environ quote_repr sample_repr_float
           (replies (mkResponse 502 "502 Server Error: Bad Gateway" (inr "")))
           [("prompt", PStr "hello")] (PStr "hello") "502 Server Error: Bad Gateway" Hv).
  right. eexists. split; [reflexivity |]. split; [simpl; lia | reflexivity].
Defined.

(** A connection that cannot be made: the run of the spec's last
    testable property. *)
Example connection_refused_is_503 :
  refact_chat no_environ quote_repr sample_repr_float
    (fails ConnectionError "Connection refused") (PDict [("prompt", PStr "hello")]) =
  (Returned (jsonify [("error",
               PStr "Could not connect to Refact server: Connection refused")]) 503,
   [upstream_call no_environ [("prompt", PStr "hello")] (PStr "hello")]).
Proof. reflexivity. Qed.

(** ** The 200 reply (lines 86-91) *)

(** Not every successful upstream reply is answered 200: on the body
    [{"choices": 5}] line 77 raises [TypeError] and the handler answers
    500. *)
Lemma C6_choices_number_is_answered_500 :
  successful_reply
    (replies sample_reply_choices_int
       (upstream_call no_environ [("prompt", PStr "hello")] (PStr "hello")))
    (PDict [("choices", PInt 5)]) /\
  fst (refact_chat no_environ quote_repr sample_repr_float (replies sample_reply_choices_int)
         (PDict [("prompt", PStr "hello")])) =
    Returned (jsonify [("error",
                PStr "An unexpected error occurred: object of type 'int' has no len()")]) 500.
Proof.
  split.
  - eexists. split; [reflexivity |]. split; reflexivity.
  - reflexivity.
Qed.

(** C6, amended.  On a valid request and a successful upstream reply
    whose body is [extractable] (lines 77-83 raise nothing on it), the
    handler returns status 200 with the fields [success] equal to true,
    [prompt] equal to the caller's prompt, [response] equal to the text
    lines 77-83 took from the body, and [raw_refact_response] equal to
    the upstream body; it has made the one upstream call. *)
Theorem C6_success_reply_fields (env : string -> option string) (rs : string -> string)
    (rf : float -> string) (up : post_call -> post_result)
    (d : list (string * pyval)) (prompt body : pyval) :
  valid_request d prompt ->
  successful_reply (up (upstream_call env d prompt)) body ->
  extractable body = true ->
  exists text,
    completion_of rs rf body = inl text /\
    refact_chat env rs rf up (PDict d) =
      (Returned (jsonify [("success", PBool true);
                          ("prompt", prompt);
                          ("response", text);
                          ("raw_refact_response", body)]) 200,
       [upstream_call env d prompt]).
Proof.
  intros Hv Hr Hx.
  destruct (proj1 (extractable_spec rs rf body) Hx) as [text Htext].
  exists text. split; [exact Htext |].
  rewrite (surjective_pairing (refact_chat env rs rf up (PDict d))).
  rewrite (refact_chat_reply env rs rf up d prompt body Hv Hr).
  rewrite (refact_chat_calls env rs rf up d prompt Hv).
  rewrite Htext. reflexivity.
Qed.

Lemma C6_success_reply_fields_witness :
  valid_request [("prompt", PStr "hello")] (PStr "hello") /\
  extractable (PDict [("id", PInt 7)]) = true /\
  fst (refact_chat no_environ quote_repr sample_repr_float
         (replies (mkResponse 200 "" (inl (PDict [("id", PInt 7)]))))
         (PDict [("prompt", PStr "hello")])) =
    Returned (jsonify [("success", PBool true);
                       ("prompt", PStr "hello");
                       ("response", PStr "{'id': 7}");
                       ("raw_refact_response", PDict [("id", PInt 7)])]) 200.
Proof.
  assert (Hv : valid_request [("prompt", PStr "hello")] (PStr "hello"))
    by (split; reflexivity).
  split; [exact Hv |]. split; [reflexivity |].
  destruct (C6_success_reply_fields no_environ quote_repr sample_repr_float
              (replies (mkResponse 200 "" (inl (PDict [("id", PInt 7)]))))
              [("prompt", PStr "hello")] (PStr "hello") (PDict [("id", PInt 7)]) Hv)
    as [text [Htext Hrun]].
  - eexists. split; [reflexivity |]. split; reflexivity.
  - reflexivity.
  - rewrite Hrun. cbn [fst].
    assert (Ht : text = PStr "{'id': 7}").
    { assert (E : inl text = @inl pyval exn (PStr "{'id': 7}"))
        by (rewrite <- Htext; reflexivity).
      injection E as E. exact E. }
    rewrite Ht. reflexivity.
Defined.

(** The other half: on a successful reply whose body is not
    [extractable] the handler returns status 500. *)
Lemma not_extractable_is_500 (env : string -> option string) (rs : string -> string)
    (rf : float -> string) (up : post_call -> post_result)
    (d : list (string * pyval)) (prompt body : pyval) :
  valid_request d prompt ->
  successful_reply (up (upstream_call env d prompt)) body ->
  extractable body = false ->
  exists msg, fst (refact_chat env rs rf up (PDict d)) = Returned (unexpected_body msg) 500.
Proof.
  intros Hv Hr Hx.
  rewrite (refact_chat_reply env rs rf up d prompt body Hv Hr).
  destruct (completion_of rs rf body) as [text | e] eqn:He.
  - assert (extractable body = true)
      by (apply (extractable_spec rs rf); exists text; exact He).
    congruence.
  - eexists. reflexivity.
Qed.

(** ** The outbound URL (line 57) *)

Lemma str_length_app (s t : string) :
  String.length (s ++ t) = (String.length s + String.length t)%nat.
Proof. induction s as [| a s IH]; simpl; [reflexivity | rewrite IH; reflexivity]. Qed.

Lemma str_app_assoc (s t u : string) : (s ++ t) ++ u = s ++ (t ++ u).
Proof. induction s as [| a s IH]; simpl; [reflexivity | rewrite IH; reflexivity]. Qed.

Lemma str_app_inv_tail (t s1 s2 : string) : s1 ++ t = s2 ++ t -> s1 = s2.
Proof.
  revert s2. induction s1 as [| a s1 IH]; intros [| b s2] H.
  - reflexivity.
  - apply (f_equal String.length) in H. simpl in H. rewrite str_length_app in H. lia.
  - apply (f_equal String.length) in H. simpl in H. rewrite str_length_app in H. lia.
  - simpl in H. injection H as -> H. f_equal. apply IH. exact H.
Qed.

(** [rstrip] takes off trailing copies of the character and nothing
    else. *)
Lemma rstrip_split (c : ascii) (s : string) :
  exists n, s = rstrip c s ++ repeat_char c n.
Proof.
  induction s as [| a s [n IH]].
  - exists O. reflexivity.
  - simpl. destruct (rstrip c s) as [| b r] eqn:E.
    + destruct (Ascii.eqb a c) eqn:Ea.
      * apply Ascii.eqb_eq in Ea. subst a. exists (S n). simpl. f_equal. exact IH.
      * exists n. simpl. f_equal. exact IH.
    + exists n. simpl. f_equal. exact IH.
Qed.

(** What [rstrip] leaves does not end in the character. *)
Lemma rstrip_no_trailing (c : ascii) (s p : string) :
  rstrip c s <> p ++ String c EmptyString.
Proof.
  revert p. induction s as [| a s IH]; intros p H.
  - destruct p; discriminate H.
  - simpl in H. destruct (rstrip c s) as [| b r] eqn:E.
    + destruct (Ascii.eqb a c) eqn:Ea.
      * destruct p; discriminate H.
      * destruct p as [| a' p]; simpl in H.
        -- injection H as ->. rewrite Ascii.eqb_refl in Ea. discriminate Ea.
        -- injection H as _ H. destruct p; discriminate H.
    + destruct p as [| a' p]; simpl in H.
      * discriminate H.
      * injection H as _ H. exact (IH p H).
Qed.

Lemma rstrip_repeat_char (c : ascii) (n : nat) : rstrip c (repeat_char c n) = EmptyString.
Proof.
  induction n as [| n IH]; [reflexivity |].
  simpl. rewrite IH, Ascii.eqb_refl. reflexivity.
Qed.

(** Trailing copies of the character do not change the result. *)
Lemma rstrip_app_repeat (c : ascii) (s : string) (n : nat) :
  rstrip c (s ++ repeat_char c n) = rstrip c s.
Proof.
  induction s as [| a s IH].
  - simpl. apply rstrip_repeat_char.
  - simpl. rewrite IH. reflexivity.
Qed.

(** Every string is a possible value of [REFACT_SERVER_URL]. *)
Lemma REFACT_SERVER_URL_of_environ (base : string) :
  REFACT_SERVER_URL (environ_of [("REFACT_SERVER_URL", base)]) = base.
Proof. reflexivity. Qed.

(** C10.  The outbound URL is [REFACT_SERVER_URL] with all its trailing
    slashes removed, followed by ["/v1/completions"]: the part kept
    differs from the value by a run of slashes only and does not end in
    a slash.  A base URL with more slashes at its end gives the same
    outbound URL, and the URL never has two slashes before
    ["v1/completions"]. *)
Theorem C10_url_without_trailing_slashes (env : string -> option string) :
  full_refact_url env = rstrip "/" (REFACT_SERVER_URL env) ++ "/v1/completions" /\
  (exists n, REFACT_SERVER_URL env =
             rstrip "/" (REFACT_SERVER_URL env) ++ repeat_char "/" n) /\
  (forall p, rstrip "/" (REFACT_SERVER_URL env) <> p ++ "/") /\
  (forall env' n,
      REFACT_SERVER_URL env' = REFACT_SERVER_URL env ++ repeat_char "/" n ->
      full_refact_url env' = full_refact_url env) /\
  (forall p, full_refact_url env <> p ++ "//v1/completions").
Proof.
  split; [reflexivity |].
  split; [apply rstrip_split |].
  split; [intros p; apply rstrip_no_trailing |].
  split.
  - intros env' n H. unfold full_refact_url. rewrite H, rstrip_app_repeat. reflexivity.
  - intros p H. unfold full_refact_url, REFACT_COMPLETION_ENDPOINT in H.
    change (p ++ "//v1/completions") with (p ++ ("/" ++ "/v1/completions")) in H.
    rewrite <- str_app_assoc in H.
    apply str_app_inv_tail in H.
    exact (rstrip_no_trailing "/" _ p H).
Qed.

Lemma C10_url_without_trailing_slashes_witness :
  REFACT_SERVER_URL (environ_of [("REFACT_SERVER_URL", "http://refact:8008//")]) =
    REFACT_SERVER_URL (environ_of [("REFACT_SERVER_URL", "http://refact:8008")])
    ++ repeat_char "/" 2 /\
  full_refact_url (environ_of [("REFACT_SERVER_URL", "http://refact:8008//")]) =
    full_refact_url (environ_of [("REFACT_SERVER_URL", "http://refact:8008")]).
Proof.
  split; [reflexivity |].
  apply (proj1 (proj2 (proj2 (proj2
           (C10_url_without_trailing_slashes
              (environ_of [("REFACT_SERVER_URL", "http://refact:8008")])))))
           (environ_of [("REFACT_SERVER_URL", "http://refact:8008//")]) 2%nat).
  reflexivity.
Defined.

Example full_refact_url_default :
  full_refact_url no_environ = "http://localhost:8008/v1/completions".
Proof. reflexivity. Qed.

Example full_refact_url_only_slashes :
  full_refact_url (environ_of [("REFACT_SERVER_URL", "///")]) = "/v1/completions".
Proof. reflexivity. Qed.

(** ** The handler on every request body *)

(** The four kinds of body, by the path the handler takes. *)
Lemma data_cases (data : pyval) :
  truthy data = false \/
  (truthy data = true /\ forall d, data <> PDict d) \/
  (exists d, data = PDict d /\ truthy (PDict d) = true /\
             truthy (get_or d "prompt" PNone) = false) \/
  (exists d prompt, data = PDict d /\ valid_request d prompt).
Proof.
  destruct (truthy data) eqn:Ht; [| left; reflexivity].
  right.
  destruct data as [| b | z | f | s | l | d];
    try (left; split; [reflexivity | intros d' H; discriminate H]).
  right.
  destruct (truthy (get_or d "prompt" PNone)) eqn:Hp.
  - right. unfold get_or in Hp.
    destruct (dict_get "prompt" d) as [prompt |] eqn:Hg; [| discriminate Hp].
    exists d, prompt. split; [reflexivity |]. split; assumption.
  - left. exists d. repeat split; assumption.
Qed.

(** The run on a truthy body that is not a dict, with the exception
    that leaves the handler. *)
Lemma refact_chat_escapes (env : string -> option string) (rs : string -> string)
    (rf : float -> string) (up : post_call -> post_result) (data : pyval) :
  truthy data = true ->
  (forall d, data <> PDict d) ->
  refact_chat env rs rf up data =
    (Escaped (UnboundLocalError
       "cannot access local variable 'requests' where it is not associated with a value"),
     []).
Proof.
  intros Ht Hd. enter_try. rewrite Ht.
  destruct data; try reflexivity.
  exfalso. apply (Hd d). reflexivity.
Qed.

(** The outcome of a valid request is a returned reply, whatever the
    upstream does. *)
Lemma refact_chat_valid_returns (env : string -> option string) (rs : string -> string)
    (rf : float -> string) (up : post_call -> post_result)
    (d : list (string * pyval)) (prompt : pyval) :
  valid_request d prompt ->
  (exists text raw,
      fst (refact_chat env rs rf up (PDict d)) =
        Returned (success_body prompt text raw) 200) \/
  (exists msg,
      fst (refact_chat env rs rf up (PDict d)) = Returned (unavailable_body msg) 503) \/
  (exists msg,
      fst (refact_chat env rs rf up (PDict d)) = Returned (unexpected_body msg) 500).
Proof.
  intros [Hp Ht]. rewrite (refact_chat_valid env rs rf up d prompt Hp Ht). cbn [fst].
  destruct (up (upstream_call env d prompt)) as [k msg | r].
  - right. left. exists msg. reflexivity.
  - destruct ((400 <=? status_code r) && (status_code r <? 600)).
    + right. left. eexists. reflexivity.
    + destruct (decoded r) as [body | msg].
      * destruct (completion_of rs rf body) as [text | e].
        -- left. exists text, body. reflexivity.
        -- right. right. eexists. reflexivity.
      * right. left. exists msg. reflexivity.
Qed.

(** X1.  An exception leaves the handler exactly when
    [request.get_json()] raises, or the body decodes to a truthy value
    that is not a JSON object (a non-empty list or string, a non-zero
    number, [true]).  It is then [UnboundLocalError], raised by the
    first [except] clause because [import requests] has not run, and no
    upstream call was made.  On every other request the handler returns
    a reply. *)
Theorem X1_escape_iff_truthy_non_object (env : string -> option string)
    (rs : string -> string) (rf : float -> string) (up : post_call -> post_result)
    (req : request) :
  ((exists e, fst (refact_chat env rs rf up req) = Escaped e) <->
   ((exists e0, req = NoJson e0) \/
    (exists data, req = JsonBody data /\ truthy data = true /\
                  forall d, data <> PDict d))) /\
  (forall e, fst (refact_chat env rs rf up req) = Escaped e ->
             (exists msg, e = UnboundLocalError msg) /\
             snd (refact_chat env rs rf up req) = []) /\
  ((forall e, fst (refact_chat env rs rf up req) <> Escaped e) ->
   exists body status, fst (refact_chat env rs rf up req) = Returned body status).
Proof.
  assert (Hret : (forall e, fst (refact_chat env rs rf up req) <> Escaped e) ->
                 exists body status,
                   fst (refact_chat env rs rf up req) = Returned body status).
  { intros Hne. destruct (fst (refact_chat env rs rf up req)) as [body status | e].
    - exists body, status. reflexivity.
    - exfalso. exact (Hne e eq_refl). }
  split; [| split; [| exact Hret]]; clear Hret.
  - destruct req as [data | e0].
    + destruct (data_cases data)
        as [Hf | [[Ht Hd] | [[d [-> [Ht Hp]]] | [d [prompt [-> Hv]]]]]].
      * rewrite (refact_chat_falsy_data env rs rf up data Hf). cbn [fst]. split.
        -- intros [e H]. discriminate H.
        -- intros [[e0 H] | [data' [[= <-] [Ht _]]]]; [discriminate H | congruence].
      * rewrite (refact_chat_escapes env rs rf up data Ht Hd). cbn [fst]. split.
        -- intros _. right. exists data. repeat split; assumption.
        -- intros _. eexists. reflexivity.
      * rewrite (refact_chat_falsy_prompt env rs rf up d Ht Hp). cbn [fst]. split.
        -- intros [e H]. discriminate H.
        -- intros [[e0 H] | [data' [[= <-] [_ Hd]]]]; [discriminate H |].
           exfalso. apply (Hd d). reflexivity.
      * split.
        -- intros [e H]. exfalso.
           destruct (refact_chat_valid_returns env rs rf up d prompt Hv)
             as [[t [r E]] | [[m E] | [m E]]]; rewrite E in H; discriminate H.
        -- intros [[e0 H] | [data' [[= <-] [_ Hd]]]]; [discriminate H |].
           exfalso. apply (Hd d). reflexivity.
    + rewrite refact_chat_no_json. cbn [fst]. split.
      * intros _. left. exists e0. reflexivity.
      * intros _. eexists. reflexivity.
  - destruct req as [data | e0].
    + destruct (data_cases data)
        as [Hf | [[Ht Hd] | [[d [-> [Ht Hp]]] | [d [prompt [-> Hv]]]]]].
      * rewrite (refact_chat_falsy_data env rs rf up data Hf). cbn [fst snd].
        intros e H. discriminate H.
      * rewrite (refact_chat_escapes env rs rf up data Ht Hd). cbn [fst snd].
        intros e [= <-]. split; [eexists; reflexivity | reflexivity].
      * rewrite (refact_chat_falsy_prompt env rs rf up d Ht Hp). cbn [fst snd].
        intros e H. discriminate H.
      * intros e H. exfalso.
        destruct (refact_chat_valid_returns env rs rf up d prompt Hv)
          as [[t [r E]] | [[m E] | [m E]]]; rewrite E in H; discriminate H.
    + rewrite refact_chat_no_json. cbn [fst snd].
      intros e [= <-]. split; [eexists; reflexivity | reflexivity].
Qed.

(** X2.  Which 400 a rejected request gets.  A falsy body of any type,
    the empty object included, is answered ["No input data provided"]; a
    non-empty object whose [prompt] is missing or falsy of any type
    ([null], [0], [""], [[]], [false]) is answered ["Prompt is
    required"].  Neither makes an upstream call. *)
Theorem X2_which_400 (env : string -> option string) (rs : string -> string)
    (rf : float -> string) (up : post_call -> post_result) (data : pyval) :
  (truthy data = false ->
   refact_chat env rs rf up data =
     (Returned (jsonify [("error", PStr "No input data provided")]) 400, [])) /\
  (forall d k v rest,
      data = PDict d ->
      d = (k, v) :: rest ->
      (dict_get "prompt" d = None \/
       exists p, dict_get "prompt" d = Some p /\ truthy p = false) ->
      refact_chat env rs rf up data =
        (Returned (jsonify [("error", PStr "Prompt is required")]) 400, [])).
Proof.
  split.
  - apply refact_chat_falsy_data.
  - intros d k v rest -> Hd Hp.
    apply refact_chat_falsy_prompt.
    + rewrite Hd. reflexivity.
    + unfold get_or. destruct Hp as [-> | [p [-> Hp]]]; [reflexivity | exact Hp].
Qed.

Lemma X2_which_400_witness :
  truthy (PDict []) = false /\
  refact_chat no_environ quote_repr sample_repr_float (fails Timeout "timed out") (PDict []) =
    (Returned (jsonify [("error", PStr "No input data provided")]) 400, []) /\
  refact_chat no_environ quote_repr sample_repr_float (fails Timeout "timed out")
    (PDict [("prompt", PInt 0)]) =
    (Returned (jsonify [("error", PStr "Prompt is required")]) 400, []).
Proof.
  split; [reflexivity |].
  split.
  - apply (proj1 (X2_which_400 no_environ quote_repr sample_repr_float
                    (fails Timeout "timed out") (PDict []))).
    reflexivity.
  - apply (proj2 (X2_which_400 no_environ quote_repr sample_repr_float
                    (fails Timeout "timed out") (PDict [("prompt", PInt 0)]))
             [("prompt", PInt 0)] "prompt" (PInt 0) []); try reflexivity.
    right. exists (PInt 0). split; reflexivity.
Defined.

Lemma X1_escape_iff_truthy_non_object_witness :
  fst (refact_chat no_environ quote_repr sample_repr_float (fails Timeout "timed out")
         (PList [PInt 1])) =
    Escaped (UnboundLocalError
      "cannot access local variable 'requests' where it is not associated with a value") /\
  snd (refact_chat no_environ quote_repr sample_repr_float (fails Timeout "timed out")
         (PList [PInt 1])) = [].
Proof.
  split; [reflexivity |].
  apply (proj1 (proj2 (X1_escape_iff_truthy_non_object no_environ quote_repr
                         sample_repr_float (fails Timeout "timed out") (PList [PInt 1])))
           (UnboundLocalError
              "cannot access local variable 'requests' where it is not associated with a value")).
  reflexivity.
Defined.

(** X3.  What the handler can return.  The status is 200, 400, 500 or
    503.  A 200 body is the four-field success body; every other body is
    a dict with the single key [error] whose value is a str. *)
Theorem X3_reply_shapes (env : string -> option string) (rs : string -> string)
    (rf : float -> string) (up : post_call -> post_result)
    (data body : pyval) (status : Z) :
  fst (refact_chat env rs rf up data) = Returned body status ->
  (status = 200 /\
   exists prompt text raw,
     body = jsonify [("success", PBool true); ("prompt", prompt);
                     ("response", text); ("raw_refact_response", raw)]) \/
  ((status = 400 \/ status = 500 \/ status = 503) /\
   exists msg, body = jsonify [("error", PStr msg)]).
Proof.
  destruct (data_cases data) as [Hf | [[Ht Hd] | [[d [-> [Ht Hp]]] | [d [prompt [-> Hv]]]]]].
  - rewrite (refact_chat_falsy_data env rs rf up data Hf). cbn [fst].
    intros [= <- <-]. right. split; [left; reflexivity | eexists; reflexivity].
  - rewrite (refact_chat_escapes env rs rf up data Ht Hd). cbn [fst].
    intros H. discriminate H.
  - rewrite (refact_chat_falsy_prompt env rs rf up d Ht Hp). cbn [fst].
    intros [= <- <-]. right. split; [left; reflexivity | eexists; reflexivity].
  - destruct (refact_chat_valid_returns env rs rf up d prompt Hv)
      as [[t [r E]] | [[m E] | [m E]]]; rewrite E; intros [= <- <-].
    + left. split; [reflexivity |]. exists prompt, t, r. reflexivity.
    + right. split; [right; right; reflexivity | eexists; reflexivity].
    + right. split; [right; left; reflexivity | eexists; reflexivity].
Qed.

Lemma X3_reply_shapes_witness :
  fst (refact_chat no_environ quote_repr sample_repr_float
         (fails ConnectionError "Connection refused")
         (PDict [("prompt", PStr "hello")])) =
    Returned (jsonify [("error",
                PStr "Could not connect to Refact server: Connection refused")]) 503 /\
  ((503 = 200 /\
    exists prompt text raw,
      jsonify [("error", PStr "Could not connect to Refact server: Connection refused")] =
      jsonify [("success", PBool true); ("prompt", prompt);
               ("response", text); ("raw_refact_response", raw)]) \/
   ((503 = 400 \/ 503 = 500 \/ 503 = 503) /\
    exists msg,
      jsonify [("error", PStr "Could not connect to Refact server: Connection refused")] =
      jsonify [("error", PStr msg)])).
Proof.
  split; [reflexivity |].
  apply (X3_reply_shapes no_environ quote_repr sample_repr_float
           (fails ConnectionError "Connection refused")
           (PDict [("prompt", PStr "hello")])).
  reflexivity.
Defined.

(** X4.  The handler never calls [requests.post] twice.  It calls it
    once, with [upstream_call], when the body is an object with a truthy
    [prompt], whatever the upstream then does; on every other body it
    makes no call. *)
Theorem X4_at_most_one_call (env : string -> option string) (rs : string -> string)
    (rf : float -> string) (up : post_call -> post_result) (data : pyval) :
  (exists d prompt,
      data = PDict d /\ valid_request d prompt /\
      snd (refact_chat env rs rf up data) = [upstream_call env d prompt]) \/
  ((forall d prompt, data = PDict d -> ~ valid_request d prompt) /\
   snd (refact_chat env rs rf up data) = []).
Proof.
  destruct (data_cases data) as [Hf | [[Ht Hd] | [[d [-> [Ht Hp]]] | [d [prompt [-> Hv]]]]]].
  - right. rewrite (refact_chat_falsy_data env rs rf up data Hf). split; [| reflexivity].
    intros d prompt -> [Hg _]. destruct d; [discriminate Hg | discriminate Hf].
  - right. rewrite (refact_chat_escapes env rs rf up data Ht Hd). split; [| reflexivity].
    intros d prompt -> _. apply (Hd d). reflexivity.
  - right. rewrite (refact_chat_falsy_prompt env rs rf up d Ht Hp). split; [| reflexivity].
    intros d' prompt [= <-] [Hg Htp]. unfold get_or in Hp. rewrite Hg in Hp. congruence.
  - left. exists d, prompt. split; [reflexivity |]. split; [exact Hv |].
    apply refact_chat_calls. exact Hv.
Qed.

(** ** More on the completion text (lines 77-83) *)

(** X6.  When the test of line 77 is false the [response] is
    [str(body)]: for an object without [choices] or whose [choices] is
    an empty list, string or object, and for a list none of whose
    elements is the str ["choices"].  For a str body that does not
    contain ["choices"] the [response] is the str itself, without
    quotes. *)
Theorem X6_fallback_is_str_of_body (env : string -> option string)
    (rs : string -> string) (rf : float -> string) (up : post_call -> post_result)
    (d : list (string * pyval)) (prompt body : pyval) :
  valid_request d prompt ->
  successful_reply (up (upstream_call env d prompt)) body ->
  (exists b, body = PDict b /\
             (dict_get "choices" b = None \/
              dict_get "choices" b = Some (PList []) \/
              dict_get "choices" b = Some (PStr "") \/
              dict_get "choices" b = Some (PDict []))) \/
  (exists l, body = PList l /\ existsb (is_str "choices") l = false) \/
  (exists s, body = PStr s /\ str_contains "choices" s = false) ->
  fst (refact_chat env rs rf up (PDict d)) =
    Returned (success_body prompt (PStr (py_str rs rf body)) body) 200 /\
  (forall s, body = PStr s -> py_str rs rf body = s).
Proof.
  intros Hv Hr Hshape.
  rewrite (refact_chat_reply env rs rf up d prompt body Hv Hr).
  split.
  - replace (completion_of rs rf body) with (@inl pyval exn (PStr (py_str rs rf body)));
      [reflexivity |].
    symmetry. unfold completion_of, completion_text. unfold_ops.
    destruct Hshape as [[b [-> Hc]] | [[l [-> Hl]] | [s [-> Hs]]]].
    + simpl. destruct Hc as [Hc | [Hc | [Hc | Hc]]]; rewrite Hc; reflexivity.
    + simpl. rewrite Hl. reflexivity.
    + simpl. rewrite Hs. reflexivity.
  - intros s ->. reflexivity.
Qed.

Lemma X6_fallback_is_str_of_body_witness :
  valid_request [("prompt", PStr "hello")] (PStr "hello") /\
  fst (refact_chat no_environ quote_repr sample_repr_float
         (replies (mkResponse 200 "" (inl (PStr "pong"))))
         (PDict [("prompt", PStr "hello")])) =
    Returned (success_body (PStr "hello") (PStr "pong") (PStr "pong")) 200.
Proof.
  assert (Hv : valid_request [("prompt", PStr "hello")] (PStr "hello"))
    by (split; reflexivity).
  split; [exact Hv |].
  apply (X6_fallback_is_str_of_body no_environ quote_repr sample_repr_float
           (replies (mkResponse 200 "" (inl (PStr "pong"))))
           [("prompt", PStr "hello")] (PStr "hello") (PStr "pong") Hv).
  - eexists. split; [reflexivity |]. split; reflexivity.
  - right. right. exists "pong". split; reflexivity.
Defined.



(** X8.  When [choices[0]] is an object whose [text] is missing or falsy
    and which has no [message] key, the [response] is what
    [get("text")] gave: the falsy value itself ([""], [0], [false],
    [null]) or [None] when the key is missing.  The body is not
    stringified. *)
Theorem X8_falsy_text_without_message (env : string -> option string)
    (rs : string -> string) (rf : float -> string) (up : post_call -> post_result)
    (d b c : list (string * pyval)) (rest : list pyval) (prompt : pyval) :
  valid_request d prompt ->
  successful_reply (up (upstream_call env d prompt)) (PDict b) ->
  dict_get "choices" b = Some (PList (PDict c :: rest)) ->
  dict_get "message" c = None ->
  (dict_get "text" c = None ->
   fst (refact_chat env rs rf up (PDict d)) =
     Returned (success_body prompt PNone (PDict b)) 200) /\
  (forall t, dict_get "text" c = Some t -> truthy t = false ->
   fst (refact_chat env rs rf up (PDict d)) =
     Returned (success_body prompt t (PDict b)) 200).
Proof.
  intros Hv Hr Hc Hm.
  rewrite (refact_chat_reply env rs rf up d prompt (PDict b) Hv Hr).
  split.
  - intros Ht.
    assert (Hf : truthy (get_or c "text" PNone) = false)
      by (unfold get_or; rewrite Ht; reflexivity).
    rewrite (completion_of_neither rs rf b c rest Hc Hf Hm).
    unfold get_or. rewrite Ht. reflexivity.
  - intros t Ht Hf.
    assert (Hf' : truthy (get_or c "text" PNone) = false)
      by (unfold get_or; rewrite Ht; exact Hf).
    rewrite (completion_of_neither rs rf b c rest Hc Hf' Hm).
    unfold get_or. rewrite Ht. reflexivity.
Qed.

Lemma X8_falsy_text_without_message_witness :
  valid_request [("prompt", PStr "hello")] (PStr "hello") /\
  fst (refact_chat no_environ quote_repr sample_repr_float
         (replies (mkResponse 200 ""
            (inl (PDict [("choices", PList [PDict [("text", PStr "")]])]))))
         (PDict [("prompt", PStr "hello")])) =
    Returned (success_body (PStr "hello") (PStr "")
                (PDict [("choices", PList [PDict [("text", PStr "")]])])) 200.
Proof.
  assert (Hv : valid_request [("prompt", PStr "hello")] (PStr "hello"))
    by (split; reflexivity).
  split; [exact Hv |].
  refine (proj2 (X8_falsy_text_without_message no_environ quote_repr sample_repr_float
                   (replies (mkResponse 200 ""
                      (inl (PDict [("choices", PList [PDict [("text", PStr "")]])]))))
                   [("prompt", PStr "hello")] _ [("text", PStr "")] [] (PStr "hello")
                   Hv _ _ _) (PStr "") _ _).
  - eexists. split; [reflexivity |]. split; reflexivity.
  - reflexivity.
  - reflexivity.
  - reflexivity.
  - reflexivity.
Defined.

(** ** More on the outbound URL (line 57) *)

Lemma str_app_nil_r (s : string) : s ++ "" = s.
Proof. induction s as [| a s IH]; simpl; [reflexivity | rewrite IH; reflexivity]. Qed.

Lemma repeat_char_snoc (c : ascii) (n : nat) :
  repeat_char c (S n) = repeat_char c n ++ String c EmptyString.
Proof. induction n as [| n IH]; [reflexivity |]. simpl in *. rewrite <- IH. reflexivity. Qed.

(** [rstrip] leaves a string that does not end in the character as it
    is. *)
Lemma rstrip_fixed (c : ascii) (r : string) :
  (forall p, r <> p ++ String c EmptyString) -> rstrip c r = r.
Proof.
  intros Hr. destruct (rstrip_split c r) as [[| n] Hn].
  - simpl in Hn. rewrite str_app_nil_r in Hn. symmetry. exact Hn.
  - exfalso. rewrite repeat_char_snoc, <- str_app_assoc in Hn.
    exact (Hr _ Hn).
Qed.

(** X9.  However [REFACT_SERVER_URL] splits into a part that does not
    end in a slash and a run of slashes, the outbound URL is that part
    followed by ["/v1/completions"].  In particular a value without a
    trailing slash is used whole: slashes inside it are kept. *)
Theorem X9_url_keeps_all_but_trailing_slashes (env : string -> option string)
    (r : string) (n : nat) :
  REFACT_SERVER_URL env = r ++ repeat_char "/" n ->
  (forall p, r <> p ++ "/") ->
  full_refact_url env = r ++ "/v1/completions".
Proof.
  intros Hs Hr. unfold full_refact_url.
  rewrite Hs, rstrip_app_repeat, (rstrip_fixed "/" r Hr). reflexivity.
Qed.

Lemma X9_url_keeps_all_but_trailing_slashes_witness :
  REFACT_SERVER_URL (environ_of [("REFACT_SERVER_URL", "http://host//api///")]) =
    "http://host//api" ++ repeat_char "/" 3 /\
  (forall p, "http://host//api" <> p ++ "/") /\
  full_refact_url (environ_of [("REFACT_SERVER_URL", "http://host//api///")]) =
    "http://host//api" ++ "/v1/completions".
Proof.
  assert (Hr : forall p, "http://host//api" <> p ++ "/").
  { intros p H.
    assert (E : rstrip "/" "http://host//api" = "http://host//api") by reflexivity.
    rewrite H in E at 1.
    replace (p ++ "/") with (p ++ repeat_char "/" 1) in E by reflexivity.
    rewrite rstrip_app_repeat in E.
    rewrite <- E in H.
    exact (rstrip_no_trailing "/" p p H). }
  split; [reflexivity |]. split; [exact Hr |].
  exact (X9_url_keeps_all_but_trailing_slashes
           (environ_of [("REFACT_SERVER_URL", "http://host//api///")])
           "http://host//api" 3%nat eq_refl Hr).
Defined.
